(** * Verification of sample-apps/hello.cpp

    The program is one straight-line [main]: it prints a greeting, the
    formatted current time and the value of [GetVersion()], prompts, reads
    one character with [std::cin.get()] and returns 0.

    [main] is embedded as a finite tree of calls (a free monad over the
    calls the source makes), every call tagged with its line of hello.cpp.
    A handler gives the calls their meaning on a process state: the two
    console streams with the failure state of [std::cout], the host
    clock, the host version, the stack slot of [osvi], the environment
    that ctime looks into, and the parts of the system the program could
    reach through the C and Win32 run time but never names (files,
    network). *)

From Stdlib Require Import ZArith List String Ascii Bool Lia.
From Stdlib Require Import DecimalString.
From Stdlib Require DecimalPos DecimalN.
Import ListNotations.
Local Open Scope string_scope.
Local Open Scope Z_scope.

(** ** Text helpers *)

Definition nl : ascii := Ascii.ascii_of_nat 10.
Definition newline : string := String nl EmptyString.

(** Characters of a string, and the decimal digits among them. *)
Fixpoint chars (s : string) : list ascii :=
  match s with
  | EmptyString => []
  | String c r => c :: chars r
  end.

Definition is_digit (c : ascii) : bool :=
  ((48 <=? Z.of_nat (nat_of_ascii c)) && (Z.of_nat (nat_of_ascii c) <=? 57))%bool.

(** The text of a stream up to (not including) its first newline. *)
Fixpoint first_line (s : string) : string :=
  match s with
  | EmptyString => EmptyString
  | String c r => if Ascii.eqb c nl then EmptyString else String c (first_line r)
  end.

(** A stream cut at its newlines; the piece after the last newline is
    kept, also when it is empty. *)
Fixpoint lines (s : string) : list string :=
  match s with
  | EmptyString => [EmptyString]
  | String c r =>
      if Ascii.eqb c nl then EmptyString :: lines r
      else match lines r with
           | x :: t => String c x :: t
           | [] => [String c EmptyString]
           end
  end.

Definition no_newline (s : string) : bool :=
  forallb (fun c => negb (Ascii.eqb c nl)) (chars s).

(** ** Machine integers *)

(** [DWORD] and [unsigned long] on Windows: 32 bits, wrap-around. *)
Definition dword (v : Z) : Z := v mod 2 ^ 32.

(** What [operator<<(unsigned long)] inserts with the stream's default
    flags (decimal, no grouping in the "C" locale). *)
Definition decimal (v : Z) : string :=
  NilZero.string_of_uint (N.to_uint (Z.to_N (dword v))).

(** ** The stack slot of [OSVERSIONINFO osvi]

    The declaration lives in windows.h:
    five DWORDs followed by [TCHAR szCSDVersion[128]].  The slot is kept
    as raw bytes, which is what [ZeroMemory] sees. *)

Definition sizeof_DWORD : nat := 4.

Definition sizeof_TCHAR (unicode : bool) : nat := if unicode then 2%nat else 1%nat.

Definition sizeof_OSVERSIONINFO (unicode : bool) : nat :=
  (5 * sizeof_DWORD + 128 * sizeof_TCHAR unicode)%nat.

(** [ZeroMemory(dest, n)]: the first [n] bytes of the slot become 0. *)
Definition zero_memory (n : nat) (m : list Z) : list Z :=
  (repeat 0 (Nat.min n (List.length m)) ++ skipn n m)%list.

(** Little-endian bytes of a DWORD. *)
Definition dword_bytes (v : Z) : list Z :=
  [ dword v mod 256;
    Z.shiftr (dword v) 8 mod 256;
    Z.shiftr (dword v) 16 mod 256;
    Z.shiftr (dword v) 24 mod 256 ].

(** Store of a DWORD field at byte offset [off] of the slot. *)
Definition store_dword (off : nat) (v : Z) (m : list Z) : list Z :=
  (firstn off m ++ firstn (List.length m - off) (dword_bytes v)
     ++ skipn (off + sizeof_DWORD) m)%list.

(** ** The calls [main] makes, and the ones it could make

    A [char*] is an [option string]: [None] is the null pointer, [Some s]
    points to the characters of [s] before the final NUL. *)

Inductive sysE : Type -> Type :=
(* <iostream> *)
| CoutStr (p : option string) : sysE unit (* std::cout << const char*      *)
| CoutULong (v : Z) : sysE unit           (* std::cout << unsigned long    *)
| CoutEndl : sysE unit                    (* std::cout << std::endl        *)
| CinGet : sysE Z                         (* std::cin.get()                *)
(* <ctime> *)
| Time0 : sysE Z                          (* time(0)                       *)
| CTime (t : Z) : sysE (option string)    (* ctime(&t)                     *)
(* <windows.h> *)
| GetVersion : sysE Z                     (* GetVersion()                  *)
| ZeroMemoryOsvi (n : nat) : sysE unit    (* ZeroMemory(&osvi, n)          *)
| StoreOsviSize (v : Z) : sysE unit       (* osvi.dwOSVersionInfoSize = v  *)
(* offered by the C and Win32 run time, named nowhere in hello.cpp *)
| GetEnv (name : string) : sysE (option string)
| PutEnv (name value : string) : sysE unit
| FileWrite (path data : string) : sysE unit
| NetSend (data : string) : sysE unit.

Inductive prog (R : Type) : Type :=
| Ret (r : R)
| Vis {X : Type} (line : nat) (e : sysE X) (k : X -> prog R).

Arguments Ret {R} r.
Arguments Vis {R X} line e k.

Fixpoint bind {A B : Type} (p : prog A) (f : A -> prog B) : prog B :=
  match p with
  | Ret a => f a
  | Vis l e k => Vis l e (fun x => bind (k x) f)
  end.

Definition call {X : Type} (line : nat) (e : sysE X) : prog X :=
  Vis line e (fun x => Ret x).

Declare Scope prog_scope.
Delimit Scope prog_scope with prog.
Notation "x <- p ;; q" := (bind p (fun x => q))
  (at level 61, p at next level, right associativity) : prog_scope.
Notation "p ;; q" := (bind p (fun _ => q))
  (at level 61, right associativity) : prog_scope.

(** ** hello.cpp *)

Definition greeting : string := "Hello from Windows MCP Server (C++)!".
Definition built_at : string := "Built at: ".
Definition windows_build : string := "Windows Build: ".
Definition press_enter : string := "Press Enter to exit...".

(** [int main()], statement by statement; the number is the source line.
    Operands of [<<] are taken left to right. *)
Definition main (unicode : bool) : prog Z :=
  (call 6 (CoutStr (Some greeting)) ;;
   call 6 CoutEndl ;;
   now <- call 9 Time0 ;;
   timeStr <- call 10 (CTime now) ;;
   call 11 (CoutStr (Some built_at)) ;;
   call 11 (CoutStr timeStr) ;;
   call 15 (ZeroMemoryOsvi (sizeof_OSVERSIONINFO unicode)) ;;
   call 16 (StoreOsviSize (Z.of_nat (sizeof_OSVERSIONINFO unicode))) ;;
   call 18 (CoutStr (Some windows_build)) ;;
   v <- call 18 GetVersion ;;
   call 18 (CoutULong v) ;;
   call 18 CoutEndl ;;
   call 20 (CoutStr (Some (newline ++ press_enter))) ;;
   _ <- call 21 CinGet ;;
   Ret 0)%prog.

(** The same program with the two statements on [osvi] (lines 15 and 16)
    taken out; [main] is compared with it. *)
Definition main_without_osvi : prog Z :=
  (call 6 (CoutStr (Some greeting)) ;;
   call 6 CoutEndl ;;
   now <- call 9 Time0 ;;
   timeStr <- call 10 (CTime now) ;;
   call 11 (CoutStr (Some built_at)) ;;
   call 11 (CoutStr timeStr) ;;
   call 18 (CoutStr (Some windows_build)) ;;
   v <- call 18 GetVersion ;;
   call 18 (CoutULong v) ;;
   call 18 CoutEndl ;;
   call 20 (CoutStr (Some (newline ++ press_enter))) ;;
   _ <- call 21 CinGet ;;
   Ret 0)%prog.

(** ** The host and the process state *)

(** What the machine answers: the clock at its n-th reading, the value
    behind [GetVersion()], and the C library's ctime.  ctime writes a time
    as local time, in the zone the environment variable TZ names (the
    system's zone when TZ is not set), and hands back a pointer to the
    text, or the null pointer for a time it cannot write. *)
Record host := {
  clock : nat -> Z;
  ctime : option string -> Z -> option string;
  version : Z
}.

(** The variable ctime looks up. *)
Definition TZ : string := "TZ".

(** Standard input: the characters already available, and whether the
    stream ends after them (a pipe or file) or stays open (a console on
    which nothing more has been typed yet). *)
Record instream := {
  pending : string;
  closed : bool
}.

(** A pipe holding one newline. *)
Definition one_newline : instream := {| pending := newline; closed := true |}.

(** A console on which nothing has been typed. *)
Definition silent_console : instream :=
  {| pending := EmptyString; closed := false |}.

Definition input_supplied (i : instream) : bool :=
  match pending i with
  | EmptyString => closed i
  | String _ _ => true
  end.

(** A logged call: its source line and the call with its arguments. *)
Inductive entry : Type :=
| Called {X : Type} (line : nat) (e : sysE X).

Record proc := {
  console : string;           (* bytes that reached standard output   *)
  cout_buf : string;          (* bytes still in std::cout's buffer    *)
  cout_bad : bool;            (* badbit of std::cout                  *)
  stdin : instream;
  clock_reads : nat;          (* readings of the clock so far         *)
  version_reads : nat;        (* calls of GetVersion so far           *)
  osvi : list Z;              (* the stack slot of osvi               *)
  env : list (string * string);
  files : list (string * string);
  net : list string;
  trace : list entry          (* calls made so far, oldest first      *)
}.

Definition with_stdout (s : proc) (con buf : string) : proc :=
  {| console := con; cout_buf := buf; cout_bad := cout_bad s;
     stdin := stdin s;
     clock_reads := clock_reads s; version_reads := version_reads s;
     osvi := osvi s; env := env s; files := files s; net := net s;
     trace := trace s |}.

Definition with_stdin (s : proc) (i : instream) : proc :=
  {| console := console s; cout_buf := cout_buf s; cout_bad := cout_bad s;
     stdin := i;
     clock_reads := clock_reads s; version_reads := version_reads s;
     osvi := osvi s; env := env s; files := files s; net := net s;
     trace := trace s |}.

Definition with_reads (s : proc) (c v : nat) : proc :=
  {| console := console s; cout_buf := cout_buf s; cout_bad := cout_bad s;
     stdin := stdin s;
     clock_reads := c; version_reads := v;
     osvi := osvi s; env := env s; files := files s; net := net s;
     trace := trace s |}.

Definition with_osvi (s : proc) (m : list Z) : proc :=
  {| console := console s; cout_buf := cout_buf s; cout_bad := cout_bad s;
     stdin := stdin s;
     clock_reads := clock_reads s; version_reads := version_reads s;
     osvi := m; env := env s; files := files s; net := net s;
     trace := trace s |}.

Definition with_system (s : proc) (e f : list (string * string))
    (n : list string) : proc :=
  {| console := console s; cout_buf := cout_buf s; cout_bad := cout_bad s;
     stdin := stdin s;
     clock_reads := clock_reads s; version_reads := version_reads s;
     osvi := osvi s; env := e; files := f; net := n;
     trace := trace s |}.

Definition logged (s : proc) (x : entry) : proc :=
  {| console := console s; cout_buf := cout_buf s; cout_bad := cout_bad s;
     stdin := stdin s;
     clock_reads := clock_reads s; version_reads := version_reads s;
     osvi := osvi s; env := env s; files := files s; net := net s;
     trace := (trace s ++ [x])%list |}.

Definition with_bad (s : proc) : proc :=
  {| console := console s; cout_buf := cout_buf s; cout_bad := true;
     stdin := stdin s;
     clock_reads := clock_reads s; version_reads := version_reads s;
     osvi := osvi s; env := env s; files := files s; net := net s;
     trace := trace s |}.

(** Insertion into [std::cout]: the characters go to the buffer; a
    stream whose badbit is set takes nothing. *)
Definition put (s : proc) (text : string) : proc :=
  if cout_bad s then s
  else with_stdout s (console s) (cout_buf s ++ text).

(** The inserter of a [const char *] into [std::cout]: the characters
    pointed to are inserted; for the null pointer the stream sets its
    badbit and inserts nothing. *)
Definition insert (s : proc) (p : option string) : proc :=
  match p with
  | Some text => put s text
  | None => with_bad s
  end.

(** [flush]: what the buffer holds goes out to standard output, whatever
    the state of the stream: these characters were accepted before it
    failed and are with the C run time already. *)
Definition flush (s : proc) : proc :=
  with_stdout s (console s ++ cout_buf s) EmptyString.

Fixpoint getenv (name : string) (e : list (string * string)) : option string :=
  match e with
  | [] => None
  | (k, v) :: r => if String.eqb k name then Some v else getenv name r
  end.

(** [EOF] of <cstdio>. *)
Definition EOF : Z := -1.

(** The answer to a call: its result and the state after it, or no answer
    yet (the call sits waiting). *)
Inductive reply (X : Type) : Type :=
| Done (x : X) (s : proc)
| Waiting (s : proc).

Arguments Done {X} x s.
Arguments Waiting {X} s.

Definition handle (h : host) {X : Type} (e : sysE X) (s : proc) : reply X :=
  match e in sysE T return reply T with
  | CoutStr p => Done tt (insert s p)
  | CoutULong v => Done tt (put s (decimal v))
  | CoutEndl => Done tt (flush (put s newline))
  | CinGet =>
      (* std::cin is tied to std::cout: the pending output goes out first *)
      let s1 := flush s in
      match pending (stdin s1) with
      | String c r =>
          Done (Z.of_nat (nat_of_ascii c))
               (with_stdin s1 {| pending := r; closed := closed (stdin s1) |})
      | EmptyString =>
          if closed (stdin s1) then Done EOF s1 else Waiting s1
      end
  | Time0 =>
      Done (clock h (clock_reads s))
           (with_reads s (S (clock_reads s)) (version_reads s))
  | CTime t => Done (ctime h (getenv TZ (env s)) t) s
  | GetVersion =>
      Done (dword (version h))
           (with_reads s (clock_reads s) (S (version_reads s)))
  | ZeroMemoryOsvi n => Done tt (with_osvi s (zero_memory n (osvi s)))
  | StoreOsviSize v => Done tt (with_osvi s (store_dword 0 v (osvi s)))
  | GetEnv name => Done (getenv name (env s)) s
  | PutEnv name value =>
      Done tt (with_system s ((name, value) :: env s) (files s) (net s))
  | FileWrite path data =>
      Done tt (with_system s (env s) ((path, data) :: files s) (net s))
  | NetSend data =>
      Done tt (with_system s (env s) (files s) (net s ++ [data])%list)
  end.

(** Running a program: each call is logged, then answered; a call that
    gets no answer stops the run where it is. *)
Fixpoint exec {R : Type} (h : host) (p : prog R) (s : proc) : proc * option R :=
  match p with
  | Ret r => (s, Some r)
  | Vis l e k =>
      match handle h e (logged s (Called l e)) with
      | Done x s1 => exec h (k x) s1
      | Waiting s1 => (s1, None)
      end
  end.

(** How a run of the process ends: [main] returned and the process left
    with that code (the run time flushes [std::cout] on the way out), or
    the process sits in a read that has not been answered. *)
Inductive outcome : Type :=
| Exited (code : Z) (s : proc)
| Hung (s : proc).

Definition run (h : host) (p : prog Z) (s : proc) : outcome :=
  match exec h p s with
  | (s1, Some r) => Exited r (flush s1)
  | (s1, None) => Hung s1
  end.

Definition final (o : outcome) : proc :=
  match o with
  | Exited _ s => s
  | Hung s => s
  end.

Definition exit_code (o : outcome) : option Z :=
  match o with
  | Exited c _ => Some c
  | Hung _ => None
  end.

(** A fresh process: nothing written, nothing read, [osvi] holding
    whatever the stack held, the rest of the system as found. *)
Definition start (i : instream) (garbage : list Z)
    (e f : list (string * string)) (n : list string) : proc :=
  {| console := EmptyString; cout_buf := EmptyString; cout_bad := false;
     stdin := i;
     clock_reads := 0; version_reads := 0;
     osvi := garbage; env := e; files := f; net := n;
     trace := [] |}.

(** What can be seen of a run from outside the process. *)
Record observable := {
  seen_stdout : string;
  left_stdin : instream;
  seen_exit : option Z
}.

Definition observe (o : outcome) : observable :=
  {| seen_stdout := console (final o);
     left_stdin := stdin (final o);
     seen_exit := exit_code o |}.

Arguments decimal : simpl never.
Arguments dword : simpl never.
Arguments zero_memory : simpl never.
Arguments store_dword : simpl never.
Arguments sizeof_OSVERSIONINFO : simpl never.

(** ** What a run of [main] leaves behind *)

(** The text of section 6 of the specification, with the formatted time
    [ts] (which brings its own final newline) and the version text [v]. *)
Definition template (ts v : string) : string :=
  greeting ++ newline ++
  built_at ++ ts ++
  windows_build ++ v ++ newline ++
  newline ++ press_enter.

(** What ctime hands back in a run: the first clock reading written in
    the zone TZ names in the environment [e], or the null pointer. *)
Definition time_text (h : host) (e : list (string * string)) : option string :=
  ctime h (getenv TZ e) (clock h 0).

(** Standard output of a run: the template when ctime handed back a
    text [ts]; when it handed back the null pointer, what was inserted
    before [std::cout] failed at line 11. *)
Definition stdout_text (p : option string) (v : string) : string :=
  match p with
  | Some ts => template ts v
  | None => greeting ++ newline ++ built_at
  end.

Definition is_null (p : option string) : bool :=
  match p with
  | Some _ => false
  | None => true
  end.

(** The calls of one run, in the order made, [p] being what ctime
    handed back. *)
Definition main_trace_at (p : option string) (h : host) (unicode : bool)
    : list entry :=
  [ Called 6 (CoutStr (Some greeting));
    Called 6 CoutEndl;
    Called 9 Time0;
    Called 10 (CTime (clock h 0));
    Called 11 (CoutStr (Some built_at));
    Called 11 (CoutStr p);
    Called 15 (ZeroMemoryOsvi (sizeof_OSVERSIONINFO unicode));
    Called 16 (StoreOsviSize (Z.of_nat (sizeof_OSVERSIONINFO unicode)));
    Called 18 (CoutStr (Some windows_build));
    Called 18 GetVersion;
    Called 18 (CoutULong (dword (version h)));
    Called 18 CoutEndl;
    Called 20 (CoutStr (Some (newline ++ press_enter)));
    Called 21 CinGet ].

Definition main_trace (h : host) (unicode : bool)
    (e : list (string * string)) : list entry :=
  main_trace_at (time_text h e) h unicode.

Definition after_main_at (p : option string) (h : host) (unicode : bool)
    (i : instream) (garbage : list Z) (e f : list (string * string))
    (n : list string) : proc :=
  {| console := stdout_text p (decimal (version h));
     cout_buf := EmptyString;
     cout_bad := is_null p;
     stdin := i;
     clock_reads := 1; version_reads := 1;
     osvi := store_dword 0 (Z.of_nat (sizeof_OSVERSIONINFO unicode))
               (zero_memory (sizeof_OSVERSIONINFO unicode) garbage);
     env := e; files := f; net := n;
     trace := main_trace_at p h unicode |}.

Definition after_main (h : host) (unicode : bool) (i : instream)
    (garbage : list Z) (e f : list (string * string)) (n : list string) : proc :=
  after_main_at (time_text h e) h unicode i garbage e f n.

(** The input as [std::cin.get()] leaves it: one character shorter, or
    untouched when there was none. *)
Definition after_get (i : instream) : instream :=
  match pending i with
  | String _ r => {| pending := r; closed := closed i |}
  | EmptyString => i
  end.


(** The same for [main_without_osvi]: lines 15 and 16 are not in the
    trace and the slot keeps what the stack held. *)
Definition trace_without_osvi_at (p : option string) (h : host) : list entry :=
  [ Called 6 (CoutStr (Some greeting));
    Called 6 CoutEndl;
    Called 9 Time0;
    Called 10 (CTime (clock h 0));
    Called 11 (CoutStr (Some built_at));
    Called 11 (CoutStr p);
    Called 18 (CoutStr (Some windows_build));
    Called 18 GetVersion;
    Called 18 (CoutULong (dword (version h)));
    Called 18 CoutEndl;
    Called 20 (CoutStr (Some (newline ++ press_enter)));
    Called 21 CinGet ].

Definition trace_without_osvi (h : host)
    (e : list (string * string)) : list entry :=
  trace_without_osvi_at (time_text h e) h.

Definition after_main_without_osvi_at (p : option string) (h : host)
    (i : instream) (garbage : list Z) (e f : list (string * string))
    (n : list string) : proc :=
  {| console := stdout_text p (decimal (version h));
     cout_buf := EmptyString;
     cout_bad := is_null p;
     stdin := i;
     clock_reads := 1; version_reads := 1;
     osvi := garbage;
     env := e; files := f; net := n;
     trace := trace_without_osvi_at p h |}.

Definition after_main_without_osvi (h : host) (i : instream)
    (garbage : list Z) (e f : list (string * string)) (n : list string) : proc :=
  after_main_without_osvi_at (time_text h e) h i garbage e f n.

(** ** [main] in two parts

    The calls up to the first half of line 11, which hand on what ctime
    returned, and the calls from the insertion of that pointer on. *)
Definition main_head : prog (option string) :=
  (call 6 (CoutStr (Some greeting)) ;;
   call 6 CoutEndl ;;
   now <- call 9 Time0 ;;
   timeStr <- call 10 (CTime now) ;;
   call 11 (CoutStr (Some built_at)) ;;
   Ret timeStr)%prog.

Definition main_tail (unicode : bool) (timeStr : option string) : prog Z :=
  (call 11 (CoutStr timeStr) ;;
   call 15 (ZeroMemoryOsvi (sizeof_OSVERSIONINFO unicode)) ;;
   call 16 (StoreOsviSize (Z.of_nat (sizeof_OSVERSIONINFO unicode))) ;;
   call 18 (CoutStr (Some windows_build)) ;;
   v <- call 18 GetVersion ;;
   call 18 (CoutULong v) ;;
   call 18 CoutEndl ;;
   call 20 (CoutStr (Some (newline ++ press_enter))) ;;
   _ <- call 21 CinGet ;;
   Ret 0)%prog.

Definition main_tail_without_osvi (timeStr : option string) : prog Z :=
  (call 11 (CoutStr timeStr) ;;
   call 18 (CoutStr (Some windows_build)) ;;
   v <- call 18 GetVersion ;;
   call 18 (CoutULong v) ;;
   call 18 CoutEndl ;;
   call 20 (CoutStr (Some (newline ++ press_enter))) ;;
   _ <- call 21 CinGet ;;
   Ret 0)%prog.

(** The process when [main_head] is through. *)
Definition at_line_11 (h : host) (i : instream) (garbage : list Z)
    (e f : list (string * string)) (n : list string) : proc :=
  {| console := greeting ++ newline;
     cout_buf := built_at;
     cout_bad := false;
     stdin := i;
     clock_reads := 1; version_reads := 0;
     osvi := garbage;
     env := e; files := f; net := n;
     trace := [ Called 6 (CoutStr (Some greeting));
                Called 6 CoutEndl;
                Called 9 Time0;
                Called 10 (CTime (clock h 0));
                Called 11 (CoutStr (Some built_at)) ] |}.

(** Standard output as the insertions build it up, chunk after chunk. *)
Definition raw_console (ts v : string) : string :=
  greeting ++ newline ++ built_at
    ++ ((((ts ++ windows_build) ++ v) ++ newline) ++ (newline ++ press_enter)).

Definition exec_console (p : option string) (v : string) : string :=
  match p with
  | Some ts => raw_console ts v
  | None => greeting ++ newline ++ built_at
  end.

(** ** Vocabulary of the specification *)

(** The steps of the specification's state machine; [Exit(0)] is the
    way the run ends.  A step is a span of source lines of [main]. *)
Inductive step : Type :=
| PrintGreeting
| PrintTime
| PrintVersion
| WaitForInput.

Definition step_of_line (l : nat) : option step :=
  if (l =? 6)%nat then Some PrintGreeting
  else if ((9 <=? l) && (l <=? 11))%nat%bool then Some PrintTime
  else if ((14 <=? l) && (l <=? 18))%nat%bool then Some PrintVersion
  else if ((20 <=? l) && (l <=? 21))%nat%bool then Some WaitForInput
  else None.

Definition step_eqb (a b : step) : bool :=
  match a, b with
  | PrintGreeting, PrintGreeting | PrintTime, PrintTime
  | PrintVersion, PrintVersion | WaitForInput, WaitForInput => true
  | _, _ => false
  end.

Definition entry_line (x : entry) : nat :=
  match x with Called l _ => l end.

(** The steps a trace goes through: the step of each call, a run of
    calls of one step counted once.  A call on a line outside every step
    shows as [None]. *)
Fixpoint squeeze (l : list (option step)) : list (option step) :=
  match l with
  | [] => []
  | a :: r =>
      match r with
      | b :: _ =>
          match a, b with
          | Some x, Some y => if step_eqb x y then squeeze r else a :: squeeze r
          | None, None => squeeze r
          | _, _ => a :: squeeze r
          end
      | [] => [a]
      end
  end.

Definition steps_of (t : list entry) : list (option step) :=
  squeeze (map (fun x => step_of_line (entry_line x)) t).

(** What a call touches. *)
Inductive effect : Type :=
| WritesStdout
| ReadsStdin
| ReadsClock
| ReadsVersion
| Computes
| WritesOwnStack
| ReadsEnvironment
| WritesEnvironment
| WritesFile
| UsesNetwork.

Definition effect_of {X : Type} (e : sysE X) : effect :=
  match e with
  | CoutStr _ | CoutULong _ | CoutEndl => WritesStdout
  | CinGet => ReadsStdin
  | Time0 => ReadsClock
  | CTime _ => ReadsEnvironment
  | GetVersion => ReadsVersion
  | ZeroMemoryOsvi _ | StoreOsviSize _ => WritesOwnStack
  | GetEnv _ => ReadsEnvironment
  | PutEnv _ _ => WritesEnvironment
  | FileWrite _ _ => WritesFile
  | NetSend _ => UsesNetwork
  end.

Definition entry_effect (x : entry) : effect :=
  match x with Called _ e => effect_of e end.

Definition is_output (x : entry) : bool :=
  match entry_effect x with WritesStdout => true | _ => false end.

Definition is_input (x : entry) : bool :=
  match entry_effect x with ReadsStdin => true | _ => false end.

Definition is_clock_read (x : entry) : bool :=
  match entry_effect x with ReadsClock => true | _ => false end.

Definition is_version_read (x : entry) : bool :=
  match entry_effect x with ReadsVersion => true | _ => false end.

Definition is_env_read (x : entry) : bool :=
  match entry_effect x with ReadsEnvironment => true | _ => false end.

(** Console only: the standard streams, the two host queries, and the
    process's own computation and stack. *)
Definition console_only (x : entry) : bool :=
  match entry_effect x with
  | WritesStdout | ReadsStdin | ReadsClock | ReadsVersion
  | Computes | WritesOwnStack => true
  | ReadsEnvironment | WritesEnvironment | WritesFile | UsesNetwork => false
  end.

(** Console only, or a look into the environment. *)
Definition console_or_env_read (x : entry) : bool :=
  (console_only x || is_env_read x)%bool.

Definition is_stack_write (x : entry) : bool :=
  match entry_effect x with WritesOwnStack => true | _ => false end.

(** A string without its first [k] characters. *)
Fixpoint drop (k : nat) (s : string) : string :=
  match k, s with
  | O, _ => s
  | S _, EmptyString => EmptyString
  | S k', String _ r => drop k' r
  end.

(** The time text as it stands on standard output: what follows
    "Built at: " on the second line, with the newline that closes it. *)
Definition printed_stamp (out : string) : string :=
  drop (String.length built_at) (nth 1 (lines out) EmptyString) ++ newline.

(** The calls made once the first read of standard input has begun. *)
Fixpoint after_wait (t : list entry) : list entry :=
  match t with
  | [] => []
  | x :: r => if is_input x then r else after_wait r
  end.

Definition count (p : entry -> bool) (t : list entry) : nat :=
  List.length (filter p t).

(** ** A host to run the model on

    A machine whose clock stands at a given second, whose local time is
    UTC unless TZ says otherwise, and whose ctime writes the day of the
    month with two digits, as the example of section 6 of the
    specification does, and hands back the null pointer for times before
    1970 or after the year 3000. *)
Module SampleHost.

Definition two_digits (n : Z) : string :=
  NilZero.string_of_uint (N.to_uint (Z.to_N (n / 10)))
  ++ NilZero.string_of_uint (N.to_uint (Z.to_N (n mod 10))).

Definition day_names : list string :=
  ["Sun"; "Mon"; "Tue"; "Wed"; "Thu"; "Fri"; "Sat"].

Definition month_names : list string :=
  ["Jan"; "Feb"; "Mar"; "Apr"; "May"; "Jun";
   "Jul"; "Aug"; "Sep"; "Oct"; "Nov"; "Dec"].

(** Year, month (1..12) and day of the month of a day count from
    1970-01-01, in the proleptic Gregorian calendar. *)
Definition civil_from_days (days : Z) : Z * Z * Z :=
  let z := days + 719468 in
  let era := z / 146097 in
  let doe := z - era * 146097 in
  let yoe := (doe - doe / 1460 + doe / 36524 - doe / 146096) / 365 in
  let doy := doe - (365 * yoe + yoe / 4 - yoe / 100) in
  let mp := (5 * doy + 2) / 153 in
  let d := doy - (153 * mp + 2) / 5 + 1 in
  let m := if mp <? 10 then mp + 3 else mp - 9 in
  let y := yoe + era * 400 + (if m <=? 2 then 1 else 0) in
  (y, m, d).

Definition days_from_civil (y m d : Z) : Z :=
  let y1 := if m <=? 2 then y - 1 else y in
  let era := y1 / 400 in
  let yoe := y1 - era * 400 in
  let mp := if m <=? 2 then m + 9 else m - 3 in
  let doy := (153 * mp + 2) / 5 + d - 1 in
  let doe := yoe * 365 + yoe / 4 - yoe / 100 + doy in
  era * 146097 + doe - 719468.

Definition utc_ctime (t : Z) : string :=
  let days := t / 86400 in
  let secs := t mod 86400 in
  let '(y, m, d) := civil_from_days days in
  nth (Z.to_nat ((days + 4) mod 7)) day_names "???" ++ " "
  ++ nth (Z.to_nat (m - 1)) month_names "???" ++ " "
  ++ two_digits d ++ " "
  ++ two_digits (secs / 3600) ++ ":"
  ++ two_digits (secs mod 3600 / 60) ++ ":"
  ++ two_digits (secs mod 60) ++ " "
  ++ NilZero.string_of_uint (N.to_uint (Z.to_N y)) ++ newline.

Definition number (s : string) : option Z :=
  match NilZero.uint_of_string s with
  | Some d => Some (Z.of_N (N.of_uint d))
  | None => None
  end.

Fixpoint month_index (name : string) (l : list string) (i : Z) : option Z :=
  match l with
  | [] => None
  | x :: r => if String.eqb x name then Some i else month_index name r (i + 1)
  end.

(** Reading such a line back into seconds since 1970-01-01 UTC. *)
Definition parse_ctime (s : string) : option Z :=
  match month_index (substring 4 3 s) month_names 1,
        number (substring 8 2 s), number (substring 11 2 s),
        number (substring 14 2 s), number (substring 17 2 s),
        number (first_line (substring 20 (String.length s - 20) s)) with
  | Some m, Some d, Some hh, Some mm, Some ss, Some y =>
      Some (days_from_civil y m d * 86400 + hh * 3600 + mm * 60 + ss)
  | _, _, _, _, _, _ => None
  end.

(** Noon of 1 January 2025, the instant of the specification's example. *)
Definition noon_2025 : Z := 1735732800.

(** Windows 10 build 19045 as [GetVersion()] packs it: major and minor
    version in the low word, the build number in the high word. *)
Definition windows10 : Z :=
  Z.lor 10 (Z.lor (Z.shiftl 0 8) (Z.shiftl 19045 16)).

(** Seconds east of UTC for the zones this host knows. *)
Definition zone_offset (tz : option string) : Z :=
  match tz with
  | Some name =>
      if String.eqb name "JST-9" then 9 * 3600
      else if String.eqb name "EST5" then - (5 * 3600)
      else 0
  | None => 0
  end.

(** The last second ctime writes: 3000-12-31 23:59:59 UTC. *)
Definition last_second : Z := 32535215999.

Definition local_ctime (tz : option string) (t : Z) : option string :=
  if ((t <? 0) || (last_second <? t))%bool then None
  else Some (utc_ctime (t + zone_offset tz)).

Definition sample : host :=
  {| clock := fun n => noon_2025 + Z.of_nat n;
     ctime := local_ctime;
     version := windows10 |}.

(** The same machine with its clock set past the year 3000. *)
Definition far_future : host :=
  {| clock := fun n => last_second + 1 + Z.of_nat n;
     ctime := local_ctime;
     version := windows10 |}.

End SampleHost.

(** ** Reading memory and output back *)

(** The DWORD held at byte offset [off] of a slot, little-endian. *)
Definition load_dword (off : nat) (m : list Z) : Z :=
  nth off m 0
  + Z.shiftl (nth (off + 1) m 0) 8
  + Z.shiftl (nth (off + 2) m 0) 16
  + Z.shiftl (nth (off + 3) m 0) 24.

(** A decimal numeral read as a number. *)
Definition read_decimal (s : string) : option Z :=
  match NilZero.uint_of_string s with
  | Some d => Some (Z.of_N (N.of_uint d))
  | None => None
  end.

(** The version text as it stands on standard output: what follows
    "Windows Build: " on the third line. *)
Definition printed_version (out : string) : string :=
  drop (String.length windows_build) (nth 2 (lines out) EmptyString).

(** How many newlines a text holds. *)
Fixpoint count_newlines (s : string) : nat :=
  match s with
  | EmptyString => O
  | String c r =>
      if Ascii.eqb c nl then S (count_newlines r) else count_newlines r
  end.

(** The sample host with a clock that runs on after its first reading
    and a version value carrying bits above the 32 of a DWORD. *)
Definition later_host : host :=
  {| clock := fun n => SampleHost.noon_2025 + 5 * Z.of_nat n;
     ctime := SampleHost.local_ctime;
     version := SampleHost.windows10 + 2 ^ 32 |}.

(** A host whose ctime hands back a bare word, with no newline. *)
Definition bare_host : host :=
  {| clock := fun _ => -1;
     ctime := fun _ _ => Some "unknown";
     version := 0 |}.

(** * Proofs *)

Lemma append_assoc (a b c : string) : (a ++ b) ++ c = a ++ (b ++ c).
Proof.
  induction a as [|x a IH]; simpl; [reflexivity | now rewrite IH].
Qed.

Lemma append_nil_r (a : string) : a ++ EmptyString = a.
Proof.
  induction a as [|x a IH]; simpl; [reflexivity | now rewrite IH].
Qed.

Lemma dword_idem (v : Z) : dword (dword v) = dword v.
Proof.
  unfold dword. apply Z.mod_mod. lia.
Qed.

Lemma decimal_dword (v : Z) : decimal (dword v) = decimal v.
Proof.
  unfold decimal. now rewrite dword_idem.
Qed.

Lemma raw_console_template (ts v : string) :
  raw_console ts v = template ts v.
Proof.
  unfold raw_console, template. now rewrite !append_assoc.
Qed.

Lemma exec_console_stdout_text (p : option string) (v : string) :
  exec_console p v = stdout_text p v.
Proof.
  destruct p; [apply raw_console_template | reflexivity].
Qed.

(** Running [p] and then [k] is running [p], and [k] from where [p]
    ended; a run of [p] that waits keeps waiting. *)
Lemma exec_bind {A B : Type} (h : host) (p : prog A) (k : A -> prog B)
    (s : proc) :
  exec h (bind p k) s
  = match exec h p s with
    | (s1, Some x) => exec h (k x) s1
    | (s1, None) => (s1, None)
    end.
Proof.
  revert s. induction p as [r | X l e k' IH]; intros s; cbn [bind exec].
  - reflexivity.
  - destruct (handle h e (logged s (Called l e))) as [x s1 | s1].
    + apply IH.
    + reflexivity.
Qed.

Lemma main_split (u : bool) : main u = bind main_head (main_tail u).
Proof. reflexivity. Qed.

Lemma main_without_osvi_split :
  main_without_osvi = bind main_head main_tail_without_osvi.
Proof. reflexivity. Qed.

Lemma exec_main_head (h : host) i g e f n :
  exec h main_head (start i g e f n)
  = (at_line_11 h i g e f n, Some (time_text h e)).
Proof.
  lazy -[getenv TZ ctime clock]. reflexivity.
Qed.

Lemma exec_main_tail (p : option string) (h : host) (u : bool) i g e f n :
  exec h (main_tail u p) (at_line_11 h i g e f n) =
  (with_stdout (after_main_at p h u (after_get i) g e f n)
     (exec_console p (decimal (dword (version h)))) EmptyString,
   if input_supplied i then Some 0 else None).
Proof.
  destruct p as [ts|]; destruct i as [[|c r] [|]].
  all: lazy -[decimal dword zero_memory store_dword sizeof_OSVERSIONINFO
              Z.of_nat clock version].
  all: reflexivity.
Qed.

Lemma exec_main_tail_without_osvi (p : option string) (h : host) i g e f n :
  exec h (main_tail_without_osvi p) (at_line_11 h i g e f n) =
  (with_stdout (after_main_without_osvi_at p h (after_get i) g e f n)
     (exec_console p (decimal (dword (version h)))) EmptyString,
   if input_supplied i then Some 0 else None).
Proof.
  destruct p as [ts|]; destruct i as [[|c r] [|]].
  all: lazy -[decimal dword Z.of_nat clock version].
  all: reflexivity.
Qed.

Lemma with_stdout_after_main_at (p : option string) (h : host) (u : bool)
    i g e f n :
  with_stdout (after_main_at p h u i g e f n)
    (exec_console p (decimal (dword (version h)))) EmptyString
  = after_main_at p h u i g e f n.
Proof.
  unfold with_stdout, after_main_at.
  cbn [console cout_buf cout_bad stdin clock_reads version_reads osvi env
       files net trace].
  now rewrite exec_console_stdout_text, decimal_dword.
Qed.

Lemma with_stdout_after_main_without_osvi_at (p : option string) (h : host)
    i g e f n :
  with_stdout (after_main_without_osvi_at p h i g e f n)
    (exec_console p (decimal (dword (version h)))) EmptyString
  = after_main_without_osvi_at p h i g e f n.
Proof.
  unfold with_stdout, after_main_without_osvi_at.
  cbn [console cout_buf cout_bad stdin clock_reads version_reads osvi env
       files net trace].
  now rewrite exec_console_stdout_text, decimal_dword.
Qed.

(** The calls of [main] executed one after the other. *)
Lemma exec_main (h : host) (u : bool) i g e f n :
  exec h (main u) (start i g e f n) =
  (after_main h u (after_get i) g e f n,
   if input_supplied i then Some 0 else None).
Proof.
  rewrite main_split, exec_bind, exec_main_head, exec_main_tail.
  now rewrite with_stdout_after_main_at.
Qed.

Lemma exec_main_without_osvi (h : host) i g e f n :
  exec h main_without_osvi (start i g e f n) =
  (after_main_without_osvi h (after_get i) g e f n,
   if input_supplied i then Some 0 else None).
Proof.
  rewrite main_without_osvi_split, exec_bind, exec_main_head,
    exec_main_tail_without_osvi.
  now rewrite with_stdout_after_main_without_osvi_at.
Qed.

Lemma flush_after_main (h : host) (u : bool) i g e f n :
  flush (after_main h u i g e f n) = after_main h u i g e f n.
Proof.
  unfold flush, with_stdout, after_main, after_main_at.
  cbn [console cout_buf cout_bad stdin clock_reads version_reads osvi env
       files net trace].
  now rewrite append_nil_r.
Qed.

Lemma flush_after_main_without_osvi (h : host) i g e f n :
  flush (after_main_without_osvi h i g e f n)
  = after_main_without_osvi h i g e f n.
Proof.
  unfold flush, with_stdout, after_main_without_osvi,
    after_main_without_osvi_at.
  cbn [console cout_buf cout_bad stdin clock_reads version_reads osvi env
       files net trace].
  now rewrite append_nil_r.
Qed.

Lemma after_get_unsupplied (i : instream) :
  input_supplied i = false -> after_get i = i.
Proof.
  unfold input_supplied, after_get. destruct (pending i); [reflexivity | discriminate].
Qed.

(** The whole run in one equation: with input supplied [main] returns 0
    and the process exits; with none it sits in [std::cin.get()]. *)
Lemma run_main (h : host) (u : bool) i g e f n :
  run h (main u) (start i g e f n) =
  if input_supplied i then Exited 0 (after_main h u (after_get i) g e f n)
  else Hung (after_main h u i g e f n).
Proof.
  unfold run. rewrite exec_main.
  destruct (input_supplied i) eqn:Hi.
  - now rewrite flush_after_main.
  - now rewrite after_get_unsupplied.
Qed.

Lemma run_main_without_osvi (h : host) i g e f n :
  run h main_without_osvi (start i g e f n) =
  if input_supplied i then Exited 0 (after_main_without_osvi h (after_get i) g e f n)
  else Hung (after_main_without_osvi h i g e f n).
Proof.
  unfold run. rewrite exec_main_without_osvi.
  destruct (input_supplied i) eqn:Hi.
  - now rewrite flush_after_main_without_osvi.
  - now rewrite after_get_unsupplied.
Qed.

(** Whatever the input, the process state a run of [main] ends in (or
    hangs in) is [after_main] with the input as the read left it. *)
Lemma final_run_main (h : host) (u : bool) i g e f n :
  final (run h (main u) (start i g e f n))
  = after_main h u (after_get i) g e f n.
Proof.
  rewrite run_main. destruct (input_supplied i) eqn:Hi.
  - reflexivity.
  - cbn [final]. now rewrite after_get_unsupplied.
Qed.

Lemma exit_run_main (h : host) (u : bool) i g e f n :
  exit_code (run h (main u) (start i g e f n))
  = if input_supplied i then Some 0 else None.
Proof.
  rewrite run_main. destruct (input_supplied i); reflexivity.
Qed.

(** ** Lemmas on text *)

Lemma first_line_app (a b : string) :
  no_newline a = true -> first_line (a ++ String nl b) = a.
Proof.
  unfold no_newline. induction a as [|c a IH]; simpl; intros H.
  - reflexivity.
  - apply andb_true_iff in H as [Hc Ha].
    apply negb_true_iff in Hc. rewrite Hc. now rewrite IH.
Qed.

Lemma lines_app (a b : string) :
  no_newline a = true -> lines (a ++ String nl b) = a :: lines b.
Proof.
  unfold no_newline. induction a as [|c a IH]; simpl; intros H.
  - reflexivity.
  - apply andb_true_iff in H as [Hc Ha].
    apply negb_true_iff in Hc. rewrite Hc. now rewrite IH.
Qed.

Lemma lines_no_newline (a : string) :
  no_newline a = true -> lines a = [a].
Proof.
  unfold no_newline. induction a as [|c a IH]; simpl; intros H.
  - reflexivity.
  - apply andb_true_iff in H as [Hc Ha].
    apply negb_true_iff in Hc. rewrite Hc. now rewrite IH.
Qed.

Lemma no_newline_app (a b : string) :
  no_newline (a ++ b) = (no_newline a && no_newline b)%bool.
Proof.
  unfold no_newline. induction a as [|c a IH]; simpl.
  - reflexivity.
  - now rewrite IH, andb_assoc.
Qed.

Lemma digit_not_newline (c : ascii) :
  is_digit c = true -> negb (Ascii.eqb c nl) = true.
Proof.
  intros H. apply negb_true_iff. apply Ascii.eqb_neq. intros ->.
  discriminate H.
Qed.

Lemma digits_no_newline (s : string) :
  forallb is_digit (chars s) = true -> no_newline s = true.
Proof.
  unfold no_newline. induction s as [|c s IH]; simpl; intros H.
  - reflexivity.
  - apply andb_true_iff in H as [Hc Hs].
    now rewrite (digit_not_newline c Hc), IH.
Qed.

Lemma digits_of_uint (d : Decimal.uint) :
  forallb is_digit (chars (NilEmpty.string_of_uint d)) = true.
Proof.
  induction d; simpl; try reflexivity; rewrite IHd; reflexivity.
Qed.

(** [operator<<(unsigned long)] always inserts at least one character,
    and decimal digits only. *)
Lemma decimal_digits (v : Z) : forallb is_digit (chars (decimal v)) = true.
Proof.
  unfold decimal, NilZero.string_of_uint.
  destruct (N.to_uint (Z.to_N (dword v))) eqn:E; try reflexivity;
    rewrite <- E; apply digits_of_uint.
Qed.

Lemma decimal_nonempty (v : Z) : decimal v <> EmptyString.
Proof.
  unfold decimal, NilZero.string_of_uint.
  destruct (N.to_uint (Z.to_N (dword v))); simpl; discriminate.
Qed.

Lemma decimal_no_newline (v : Z) : no_newline (decimal v) = true.
Proof.
  apply digits_no_newline, decimal_digits.
Qed.

(** The template seen line by line, for a time text that is one line
    closed by its newline. *)
Lemma newline_app (x : string) : newline ++ x = String nl x.
Proof. reflexivity. Qed.

Lemma lines_template (body v : string) :
  no_newline body = true -> no_newline v = true ->
  lines (template (body ++ newline) v)
  = [greeting; built_at ++ body; windows_build ++ v; EmptyString; press_enter].
Proof.
  intros Hb Hv. unfold template.
  rewrite (append_assoc body newline), !newline_app.
  rewrite (lines_app greeting) by reflexivity.
  rewrite <- (append_assoc built_at body).
  rewrite lines_app by (rewrite no_newline_app, Hb; reflexivity).
  rewrite <- (append_assoc windows_build v).
  rewrite lines_app by (rewrite no_newline_app, Hv; reflexivity).
  reflexivity.
Qed.

(** * The claims *)

(** C1: with standard input holding the single character newline, the
    process writes exactly the template of the specification with the
    time text of this run and the decimal version value in it (line by
    line: the greeting, the "Built at: " line, the "Windows Build: " line,
    an empty line and the prompt), takes that one character from the
    input, does not hang, and exits with code 0. *)
Theorem single_newline_run (h : host) (u cl : bool) (g : list Z)
    (e f : list (string * string)) (n : list string) (body : string) :
  time_text h e = Some (body ++ newline) ->
  no_newline body = true ->
  let o := run h (main u) (start {| pending := newline; closed := cl |} g e f n) in
  seen_stdout (observe o) = template (body ++ newline) (decimal (version h))
  /\ lines (seen_stdout (observe o))
     = [greeting; built_at ++ body; windows_build ++ decimal (version h);
        EmptyString; press_enter]
  /\ left_stdin (observe o) = {| pending := EmptyString; closed := cl |}
  /\ seen_exit (observe o) = Some 0.
Proof.
  intros Hts Hbody o. subst o. unfold observe.
  rewrite final_run_main, exit_run_main.
  unfold after_main. rewrite Hts.
  cbn [console stdin after_main_at stdout_text seen_stdout left_stdin
       seen_exit].
  split; [reflexivity | split; [| split; reflexivity]].
  apply lines_template; [assumption | apply decimal_no_newline].
Qed.

Lemma single_newline_run_sample :
  let o := run SampleHost.sample (main false)
             (start one_newline [] [] [] []) in
  seen_stdout (observe o)
  = template ("Wed Jan 01 12:00:00 2025" ++ newline)
             (decimal (version SampleHost.sample))
  /\ lines (seen_stdout (observe o))
     = [greeting; built_at ++ "Wed Jan 01 12:00:00 2025";
        windows_build ++ decimal (version SampleHost.sample);
        EmptyString; press_enter]
  /\ left_stdin (observe o) = {| pending := EmptyString; closed := true |}
  /\ seen_exit (observe o) = Some 0.
Proof.
  apply (single_newline_run SampleHost.sample false true [] [] [] []
           "Wed Jan 01 12:00:00 2025").
  - vm_compute. reflexivity.
  - vm_compute. reflexivity.
Defined.

(** C2: on every run, whatever the clock, the version value and the
    standard input, also when ctime hands back the null pointer, the
    first line on standard output is exactly
    "Hello from Windows MCP Server (C++)!". *)
Theorem first_line_is_greeting (h : host) (u : bool) (i : instream)
    (g : list Z) (e f : list (string * string)) (n : list string) :
  first_line (console (final (run h (main u) (start i g e f n))))
  = "Hello from Windows MCP Server (C++)!".
Proof.
  rewrite final_run_main. unfold after_main.
  cbn [console after_main_at]. unfold stdout_text, template.
  destruct (time_text h e); rewrite newline_app;
    exact (first_line_app greeting _ eq_refl).
Qed.

(** C3: once input is supplied (a character is available, or the stream
    is at its end) the run of [main] ends and the exit code is 0; and no
    run, whatever the input, the clock and the version value, ends with
    another code. *)
Theorem exit_code_zero (h : host) (u : bool) (i : instream)
    (g : list Z) (e f : list (string * string)) (n : list string) :
  input_supplied i = true ->
  exit_code (run h (main u) (start i g e f n)) = Some 0
  /\ forall (h' : host) (i' : instream) (c : Z),
       exit_code (run h' (main u) (start i' g e f n)) = Some c -> c = 0.
Proof.
  intros Hi. split.
  - now rewrite exit_run_main, Hi.
  - intros h' i' c. rewrite exit_run_main.
    destruct (input_supplied i'); congruence.
Qed.

Lemma exit_code_zero_sample :
  exit_code (run SampleHost.sample (main false)
               (start one_newline [] [] [] [])) = Some 0
  /\ forall (h' : host) (i' : instream) (c : Z),
       exit_code (run h' (main false) (start i' [] [] [] [])) = Some c -> c = 0.
Proof.
  apply (exit_code_zero SampleHost.sample false one_newline).
  reflexivity.
Defined.

(** C4: on every run the clock is read once; that reading is what ctime
    formats, and the text after "Built at: " on the second line of
    standard output is that formatting.  So a reader that
    inverts the host's formatting at this reading gets the reading back
    from the printed line. *)
Theorem built_at_formats_the_clock_reading (h : host) (u : bool)
    (i : instream) (g : list Z) (e f : list (string * string))
    (n : list string) (body : string) (parse : string -> option Z) :
  time_text h e = Some (body ++ newline) ->
  no_newline body = true ->
  parse (body ++ newline) = Some (clock h 0) ->
  let s := final (run h (main u) (start i g e f n)) in
  count is_clock_read (trace s) = 1%nat
  /\ clock_reads s = 1%nat
  /\ In (Called 10 (CTime (clock h 0))) (trace s)
  /\ nth 1 (lines (console s)) EmptyString = built_at ++ body
  /\ Some (printed_stamp (console s)) = ctime h (getenv TZ e) (clock h 0)
  /\ parse (printed_stamp (console s)) = Some (clock h 0).
Proof.
  intros Hts Hbody Hparse s. subst s. rewrite final_run_main.
  assert (Hl : nth 1 (lines (console (after_main h u (after_get i) g e f n)))
                 EmptyString = built_at ++ body).
  { unfold after_main. rewrite Hts. cbn [console after_main_at stdout_text].
    rewrite lines_template by (assumption || apply decimal_no_newline).
    reflexivity. }
  assert (Hp : printed_stamp (console (after_main h u (after_get i) g e f n))
               = body ++ newline).
  { unfold printed_stamp. rewrite Hl. reflexivity. }
  split; [reflexivity | split; [reflexivity | split; [| split; [| split]]]].
  - unfold after_main, after_main_at, main_trace_at. cbn [trace In]. tauto.
  - exact Hl.
  - rewrite Hp. symmetry. exact Hts.
  - now rewrite Hp.
Qed.

Lemma built_at_formats_the_clock_reading_sample :
  let s := final (run SampleHost.sample (main false)
                    (start one_newline [] [] [] [])) in
  count is_clock_read (trace s) = 1%nat
  /\ clock_reads s = 1%nat
  /\ In (Called 10 (CTime (clock SampleHost.sample 0))) (trace s)
  /\ nth 1 (lines (console s)) EmptyString
     = built_at ++ "Wed Jan 01 12:00:00 2025"
  /\ Some (printed_stamp (console s))
     = ctime SampleHost.sample (getenv TZ []) (clock SampleHost.sample 0)
  /\ SampleHost.parse_ctime (printed_stamp (console s))
     = Some (clock SampleHost.sample 0).
Proof.
  apply (built_at_formats_the_clock_reading SampleHost.sample false
           one_newline [] [] [] [] "Wed Jan 01 12:00:00 2025"
           SampleHost.parse_ctime).
  - vm_compute. reflexivity.
  - vm_compute. reflexivity.
  - vm_compute. reflexivity.
Defined.

(** C5, as the code has it: on every run on which ctime hands back a
    text, for every value [GetVersion()] may hand back (0 included),
    standard output holds "Windows Build: " followed by a value that is
    not empty, made of decimal digits, and closed by a newline. *)
Theorem windows_build_value_nonempty (h : host) (u : bool) (i : instream)
    (g : list Z) (e f : list (string * string)) (n : list string)
    (ts : string) :
  time_text h e = Some ts ->
  let out := console (final (run h (main u) (start i g e f n))) in
  exists value : string,
    out = (greeting ++ newline ++ built_at ++ ts)
          ++ windows_build ++ value ++ newline ++ (newline ++ press_enter)
    /\ value = decimal (version h)
    /\ value <> EmptyString
    /\ forallb is_digit (chars value) = true.
Proof.
  intros Hts out. subst out. rewrite final_run_main.
  exists (decimal (version h)).
  split; [| split; [reflexivity | split]].
  - unfold after_main. rewrite Hts.
    cbn [console after_main_at stdout_text]. unfold template.
    now rewrite !append_assoc.
  - apply decimal_nonempty.
  - apply decimal_digits.
Qed.

Lemma windows_build_value_nonempty_sample :
  let out := console (final (run SampleHost.sample (main false)
                               (start one_newline [] [] [] []))) in
  exists value : string,
    out = (greeting ++ newline ++ built_at
             ++ "Wed Jan 01 12:00:00 2025" ++ newline)
          ++ windows_build ++ value ++ newline ++ (newline ++ press_enter)
    /\ value = decimal (version SampleHost.sample)
    /\ value <> EmptyString
    /\ forallb is_digit (chars value) = true.
Proof.
  apply (windows_build_value_nonempty SampleHost.sample false one_newline
           [] [] [] [] ("Wed Jan 01 12:00:00 2025" ++ newline)).
  vm_compute. reflexivity.
Defined.

Lemma length_app (a b : string) :
  String.length (a ++ b) = (String.length a + String.length b)%nat.
Proof.
  induction a as [|c a IH]; simpl; [reflexivity | now rewrite IH].
Qed.

(** C5 as stated fails: on a machine whose clock stands past the year
    3000 ctime hands back the null pointer, [std::cout] fails at line 11,
    and the run ends, with exit code 0, on an output of two lines, the
    greeting and "Built at: ": no line begins with "Windows Build:" and
    no version value is on standard output. *)
Lemma windows_build_line_missing :
  let o := run SampleHost.far_future (main false)
             (start one_newline [] [] [] []) in
  exit_code o = Some 0
  /\ console (final o) = greeting ++ newline ++ built_at
  /\ existsb (String.prefix "Windows Build:") (lines (console (final o)))
     = false
  /\ ~ (exists before value after : string,
          console (final o) = before ++ windows_build ++ value ++ after
          /\ value <> EmptyString).
Proof.
  split; [vm_compute; reflexivity |].
  split; [vm_compute; reflexivity |].
  split; [vm_compute; reflexivity |].
  intros (before & value & rest & Hout & Hvalue).
  assert (Hlen : String.length
                   (console (final (run SampleHost.far_future (main false)
                                      (start one_newline [] [] [] []))))
                 = 47%nat) by (vm_compute; reflexivity).
  assert (Hin : existsb (fun k => String.prefix windows_build
                                   (drop k (greeting ++ newline ++ built_at)))
                  (seq 0 48) = false) by (vm_compute; reflexivity).
  rewrite Hout in Hlen.
  assert (Hocc : forall (a b : string),
             String.prefix windows_build
               (drop (String.length a) (a ++ windows_build ++ b)) = true).
  { intros a b. induction a as [|c a IH]; [| exact IH].
    destruct b; reflexivity. }
  assert (Hout' : greeting ++ newline ++ built_at
                  = before ++ windows_build ++ value ++ rest).
  { rewrite <- Hout. vm_compute. reflexivity. }
  rewrite !length_app in Hlen.
  assert (Hk : (String.length before < 48)%nat) by lia.
  assert (Hfalse : String.prefix windows_build
                     (drop (String.length before)
                           (greeting ++ newline ++ built_at)) = false).
  { destruct (String.prefix windows_build
                (drop (String.length before)
                      (greeting ++ newline ++ built_at))) eqn:E;
      [| reflexivity].
    rewrite <- Hin. symmetry. apply existsb_exists.
    exists (String.length before). split; [apply in_seq; lia | exact E]. }
  rewrite Hout', Hocc in Hfalse. discriminate Hfalse.
Qed.

(** C6: every run makes the same calls in the same order, line after
    line of [main], whatever the host answers and whatever the input
    holds: the steps are PrintGreeting, PrintTime, PrintVersion,
    WaitForInput, each once.  With input supplied the run then ends with
    exit code 0, without it the process stays in the read.  Nothing is
    called once the read has begun, and standard output at the exit is
    what it was when the read began. *)
Theorem linear_execution (h : host) (u : bool) (i : instream)
    (g : list Z) (e f : list (string * string)) (n : list string) :
  let o := run h (main u) (start i g e f n) in
  trace (final o) = main_trace h u e
  /\ map entry_line (trace (final o))
     = [6; 6; 9; 10; 11; 11; 15; 16; 18; 18; 18; 18; 20; 21]%nat
  /\ steps_of (trace (final o))
     = [Some PrintGreeting; Some PrintTime; Some PrintVersion;
        Some WaitForInput]
  /\ exit_code o = (if input_supplied i then Some 0 else None)
  /\ after_wait (trace (final o)) = []
  /\ existsb is_output (after_wait (trace (final o))) = false
  /\ console (final o)
     = console (final (run h (main u)
                         (start silent_console g e f n))).
Proof.
  intros o. subst o.
  rewrite !final_run_main, exit_run_main.
  repeat split.
Qed.

(** C7, as the code has it: on every run every call of [main] is a write
    to standard output, the one read of standard input, a query of the
    clock or of the version, work on the process's own values and stack,
    or the call of ctime on line 10, which looks into the environment;
    the environment, the files and the network are as they were found.
    Of the environment only the variable TZ counts: two environments
    that agree on it give the same standard output. *)
Theorem console_only_side_effects (h : host) (u : bool) (i : instream)
    (g : list Z) (e f : list (string * string)) (n : list string) :
  let s := final (run h (main u) (start i g e f n)) in
  env s = e /\ files s = f /\ net s = n
  /\ forallb console_or_env_read (trace s) = true
  /\ map entry_line (filter is_env_read (trace s)) = [10%nat]
  /\ count is_input (trace s) = 1%nat
  /\ stdin s = after_get i
  /\ forall e' : list (string * string),
       getenv TZ e' = getenv TZ e ->
       console (final (run h (main u) (start i g e' f n))) = console s.
Proof.
  intros s. subst s. rewrite final_run_main.
  do 7 (split; [reflexivity |]).
  intros e' He'. rewrite final_run_main.
  unfold after_main, time_text. now rewrite He'.
Qed.

(** C7 as stated fails: the run consults the environment.  On the sample
    host the call of ctime reads TZ, and with TZ set to "JST-9" the
    "Built at: " line shows another hour than with TZ not set. *)
Lemma environment_is_consulted :
  let tokyo := [("TZ", "JST-9")] in
  let o := run SampleHost.sample (main false)
             (start one_newline [] tokyo [] []) in
  let o' := run SampleHost.sample (main false)
              (start one_newline [] [] [] []) in
  existsb is_env_read (trace (final o)) = true
  /\ nth 1 (lines (console (final o))) EmptyString
     = "Built at: Wed Jan 01 21:00:00 2025"
  /\ nth 1 (lines (console (final o'))) EmptyString
     = "Built at: Wed Jan 01 12:00:00 2025"
  /\ console (final o) <> console (final o').
Proof.
  split; [vm_compute; reflexivity |].
  split; [vm_compute; reflexivity |].
  split; [vm_compute; reflexivity |].
  intros H.
  assert (H1 : nth 1 (lines (console (final
                 (run SampleHost.sample (main false)
                    (start one_newline [] [("TZ", "JST-9")] [] [])))))
                 EmptyString
               = nth 1 (lines (console (final
                   (run SampleHost.sample (main false)
                      (start one_newline [] [] [] [])))))
                   EmptyString)
    by (rewrite H; reflexivity).
  vm_compute in H1. discriminate H1.
Qed.

(** C8: on every run the clock is queried exactly once and
    [GetVersion()] exactly once; the two values live in the run only:
    the environment, the files and the network hold nothing of them
    afterwards. *)
Theorem each_value_read_once (h : host) (u : bool) (i : instream)
    (g : list Z) (e f : list (string * string)) (n : list string) :
  let s := final (run h (main u) (start i g e f n)) in
  count is_clock_read (trace s) = 1%nat
  /\ clock_reads s = 1%nat
  /\ count is_version_read (trace s) = 1%nat
  /\ version_reads s = 1%nat
  /\ env s = e /\ files s = f /\ net s = n.
Proof.
  intros s. subst s. rewrite final_run_main. repeat split.
Qed.

(** C9: the two statements on [osvi] are the only calls that touch the
    slot, and both write it; with them taken out, and whatever the slot
    held before, a run shows the same standard output, leaves the same
    standard input and ends the same way.  The version value printed is
    the one [GetVersion()] returned. *)
Theorem osvi_statements_unobservable (h : host) (u : bool) (i : instream)
    (g g' : list Z) (e f : list (string * string)) (n : list string) :
  let o := run h (main u) (start i g e f n) in
  let o' := run h main_without_osvi (start i g' e f n) in
  observe o = observe o'
  /\ filter (fun x => negb (is_stack_write x)) (trace (final o))
     = trace (final o')
  /\ map entry_line (filter is_stack_write (trace (final o))) = [15; 16]%nat
  /\ seen_stdout (observe o)
     = stdout_text (time_text h e) (decimal (version h))
  /\ (forall ts : string,
        time_text h e = Some ts ->
        seen_stdout (observe o) = template ts (decimal (version h)))
  /\ In (Called 18 (CoutULong (dword (version h)))) (trace (final o)).
Proof.
  intros o o'. subst o o'. unfold observe.
  rewrite run_main, run_main_without_osvi.
  assert (Ht : forall (ts : string) (s : proc),
             time_text h e = Some ts ->
             console s = stdout_text (time_text h e) (decimal (version h)) ->
             console s = template ts (decimal (version h))).
  { intros ts s Hts Hs. rewrite Hs, Hts. reflexivity. }
  destruct (input_supplied i);
    cbn [final exit_code seen_stdout];
    (split; [reflexivity |]); (split; [reflexivity |]);
    (split; [reflexivity |]); (split; [reflexivity |]);
    (split; [intros ts Hts; now apply Ht |]);
    unfold after_main, after_main_at, main_trace_at; cbn [trace In]; tauto.
Qed.

(** C10: [std::cin.get()] takes one character: with any character
    available, newline or not, the run ends with exit code 0 and the
    input is left one character shorter, the rest untouched; with the
    input empty and at its end the read comes back with EOF, nothing is
    taken and the run still ends with exit code 0.  The run hangs only
    on an open input with nothing in it. *)
Theorem get_takes_one_character (h : host) (u : bool)
    (g : list Z) (e f : list (string * string)) (n : list string) :
  (forall (c : ascii) (rest : string) (cl : bool),
     let o := run h (main u)
                (start {| pending := String c rest; closed := cl |} g e f n) in
     exit_code o = Some 0
     /\ stdin (final o) = {| pending := rest; closed := cl |})
  /\ (let o := run h (main u)
                 (start {| pending := EmptyString; closed := true |} g e f n) in
      exit_code o = Some 0
      /\ stdin (final o) = {| pending := EmptyString; closed := true |})
  /\ (forall s : proc,
        handle h CinGet
          (with_stdin s {| pending := EmptyString; closed := true |})
        = Done EOF
            (flush (with_stdin s {| pending := EmptyString; closed := true |})))
  /\ (forall i : instream,
        exit_code (run h (main u) (start i g e f n)) = None
        <-> i = {| pending := EmptyString; closed := false |}).
Proof.
  repeat split; try (rewrite ?final_run_main, ?exit_run_main; reflexivity).
  - rewrite exit_run_main. destruct i as [[|c r] [|]]; cbn; congruence.
  - intros ->. now rewrite exit_run_main.
Qed.

(** ** The sample host at work *)

Example utc_ctime_noon_2025 :
  SampleHost.utc_ctime SampleHost.noon_2025 = "Wed Jan 01 12:00:00 2025" ++ newline.
Proof. vm_compute. reflexivity. Qed.

Example parse_ctime_noon_2025 :
  SampleHost.parse_ctime (SampleHost.utc_ctime SampleHost.noon_2025) = Some SampleHost.noon_2025.
Proof. vm_compute. reflexivity. Qed.

Example decimal_windows10 : decimal SampleHost.windows10 = "1248133130".
Proof. vm_compute. reflexivity. Qed.

Example sample_run_stdout :
  console (final (run SampleHost.sample (main false)
                    (start one_newline [] [] [] [])))
  = "Hello from Windows MCP Server (C++)!" ++ newline
    ++ "Built at: Wed Jan 01 12:00:00 2025" ++ newline
    ++ "Windows Build: 1248133130" ++ newline
    ++ newline
    ++ "Press Enter to exit...".
Proof. vm_compute. reflexivity. Qed.

(** The prompt is on the console while the process waits. *)
Example sample_run_waiting :
  run SampleHost.sample (main false)
      (start silent_console [] [] [] [])
  = Hung (after_main SampleHost.sample false silent_console
            [] [] [] []).
Proof. vm_compute. reflexivity. Qed.

(** Only the first of several characters is taken. *)
Example sample_run_two_characters :
  stdin (final (run SampleHost.sample (main false)
                  (start {| pending := "ab"; closed := true |} [] [] [] [])))
  = {| pending := "b"; closed := true |}.
Proof. vm_compute. reflexivity. Qed.

(** Lines 15 and 16 do write the slot: zeroes, then the size in its
    first four bytes. *)
Example sample_run_osvi :
  osvi (final (run SampleHost.sample (main false)
                 (start one_newline
                    (repeat 204 (sizeof_OSVERSIONINFO false)) [] [] [])))
  = (148 :: repeat 0 147)%list.
Proof. vm_compute. reflexivity. Qed.

(** A version query answering 0 still prints a value. *)
Example decimal_zero : decimal 0 = "0".
Proof. vm_compute. reflexivity. Qed.

(** With the clock past the year 3000 ctime hands back the null pointer
    and the output stops after "Built at: ". *)
Example far_future_run_stdout :
  console (final (run SampleHost.far_future (main false)
                    (start one_newline [] [] [] [])))
  = "Hello from Windows MCP Server (C++)!" ++ newline ++ "Built at: ".
Proof. vm_compute. reflexivity. Qed.

(** * Further properties of [main] *)

Lemma zero_memory_whole (n : nat) (m : list Z) :
  List.length m = n -> zero_memory n m = repeat 0 n.
Proof.
  intros H. unfold zero_memory.
  rewrite H, Nat.min_id, skipn_all2 by (rewrite H; apply Nat.le_refl).
  apply app_nil_r.
Qed.

(** X1: lines 14 to 16 leave [osvi] fully initialised: whatever the stack
    held, a slot of the declared size ends up with
    [dwOSVersionInfoSize] equal to [sizeof(OSVERSIONINFO)] and every
    other byte 0, its size unchanged. *)
Theorem osvi_fully_initialised (h : host) (u : bool) (i : instream)
    (g : list Z) (e f : list (string * string)) (n : list string) :
  List.length g = sizeof_OSVERSIONINFO u ->
  let m := osvi (final (run h (main u) (start i g e f n))) in
  List.length m = sizeof_OSVERSIONINFO u
  /\ load_dword 0 m = Z.of_nat (sizeof_OSVERSIONINFO u)
  /\ skipn sizeof_DWORD m
     = repeat 0 (sizeof_OSVERSIONINFO u - sizeof_DWORD)
  /\ m = (dword_bytes (Z.of_nat (sizeof_OSVERSIONINFO u))
          ++ repeat 0 (sizeof_OSVERSIONINFO u - sizeof_DWORD))%list.
Proof.
  intros Hg m. subst m. rewrite final_run_main.
  unfold after_main. cbn [osvi after_main_at].
  rewrite (zero_memory_whole _ _ Hg).
  destruct u; vm_compute; repeat split.
Qed.

Lemma osvi_fully_initialised_sample :
  let m := osvi (final (run SampleHost.sample (main false)
                          (start one_newline (repeat 204 148) [] [] []))) in
  List.length m = sizeof_OSVERSIONINFO false
  /\ load_dword 0 m = Z.of_nat (sizeof_OSVERSIONINFO false)
  /\ skipn sizeof_DWORD m
     = repeat 0 (sizeof_OSVERSIONINFO false - sizeof_DWORD)
  /\ m = (dword_bytes (Z.of_nat (sizeof_OSVERSIONINFO false))
          ++ repeat 0 (sizeof_OSVERSIONINFO false - sizeof_DWORD))%list.
Proof.
  apply (osvi_fully_initialised SampleHost.sample false one_newline
           (repeat 204 148)).
  vm_compute. reflexivity.
Defined.



Lemma to_uint_nonnil (k : N) : N.to_uint k <> Decimal.Nil.
Proof.
  destruct k as [|p]; cbn.
  - discriminate.
  - apply DecimalPos.Unsigned.to_uint_nonnil.
Qed.

Lemma dword_range (v : Z) : 0 <= dword v < 2 ^ 32.
Proof.
  unfold dword. apply Z.mod_pos_bound. lia.
Qed.

(** What [operator<<(unsigned long)] writes reads back as the value
    written. *)
Lemma read_decimal_decimal (v : Z) : read_decimal (decimal v) = Some (dword v).
Proof.
  unfold read_decimal, decimal.
  rewrite NilZero.usu by apply to_uint_nonnil.
  rewrite DecimalN.Unsigned.of_to, Z2N.id by apply dword_range.
  reflexivity.
Qed.

(** X3: the version value can be read back from standard output: on a
    host whose time text is one line closed by its newline, the digits
    after "Windows Build: " on the third line denote [GetVersion()] as
    an unsigned 32-bit number, also when its top bit is set. *)
Theorem version_reads_back (h : host) (u : bool) (i : instream)
    (g : list Z) (e f : list (string * string)) (n : list string)
    (body : string) :
  time_text h e = Some (body ++ newline) ->
  no_newline body = true ->
  let out := console (final (run h (main u) (start i g e f n))) in
  read_decimal (printed_version out) = Some (version h mod 2 ^ 32)
  /\ 0 <= version h mod 2 ^ 32 < 2 ^ 32.
Proof.
  intros Hts Hbody out. subst out. rewrite final_run_main.
  unfold after_main. rewrite Hts.
  cbn [console after_main_at stdout_text]. unfold printed_version.
  rewrite lines_template by (assumption || apply decimal_no_newline).
  split; [| apply (dword_range (version h))].
  change (read_decimal (decimal (version h)) = Some (dword (version h))).
  apply read_decimal_decimal.
Qed.

Lemma version_reads_back_sample :
  let out := console (final (run later_host (main false)
                               (start one_newline [] [] [] []))) in
  read_decimal (printed_version out) = Some (version later_host mod 2 ^ 32)
  /\ 0 <= version later_host mod 2 ^ 32 < 2 ^ 32.
Proof.
  apply (version_reads_back later_host false one_newline [] [] [] []
           "Wed Jan 01 12:00:00 2025").
  - vm_compute. reflexivity.
  - vm_compute. reflexivity.
Defined.

(** X4: [main] puts no newline after the time text (line 11 has no
    [std::endl]): when the host's ctime text carries none, "Built at: "
    and "Windows Build: " share the second line of standard output. *)
Theorem bare_time_text_joins_lines (h : host) (u : bool) (i : instream)
    (g : list Z) (e f : list (string * string)) (n : list string)
    (ts : string) :
  time_text h e = Some ts ->
  no_newline ts = true ->
  lines (console (final (run h (main u) (start i g e f n))))
  = [greeting;
     built_at ++ ts ++ windows_build ++ decimal (version h);
     EmptyString; press_enter].
Proof.
  intros Hts Hnl. rewrite final_run_main. unfold after_main. rewrite Hts.
  cbn [console after_main_at stdout_text].
  unfold template. rewrite !newline_app.
  rewrite (lines_app greeting) by reflexivity.
  assert (E : forall x,
             built_at ++ ts ++ windows_build
               ++ decimal (version h) ++ String nl x
             = (built_at ++ ts ++ windows_build
                  ++ decimal (version h)) ++ String nl x)
    by (intros x; now rewrite !append_assoc).
  rewrite E, lines_app.
  - reflexivity.
  - rewrite !no_newline_app, Hnl, decimal_no_newline. reflexivity.
Qed.

Lemma bare_time_text_joins_lines_sample :
  lines (console (final (run bare_host (main false)
                           (start one_newline [] [] [] []))))
  = [greeting;
     built_at ++ "unknown" ++ windows_build ++ decimal (version bare_host);
     EmptyString; press_enter].
Proof.
  apply (bare_time_text_joins_lines bare_host false one_newline
           [] [] [] [] "unknown").
  - vm_compute. reflexivity.
  - vm_compute. reflexivity.
Defined.

(** X5: standard output depends on the host and the environment through
    two things only, what ctime hands back for the first clock reading
    and the low 32 bits of the version value: two runs that agree on
    these write the same output, whatever the input, the stack, the
    build, the rest of the environment, the files and later readings of
    the clock are. *)
Theorem stdout_depends_on_time_text_and_version (h h' : host) (u u' : bool)
    (i i' : instream) (g g' : list Z) (e e' f f' : list (string * string))
    (n n' : list string) :
  time_text h e = time_text h' e' ->
  version h mod 2 ^ 32 = version h' mod 2 ^ 32 ->
  console (final (run h (main u) (start i g e f n)))
  = console (final (run h' (main u') (start i' g' e' f' n'))).
Proof.
  intros Hts Hv. rewrite !final_run_main. unfold after_main.
  cbn [console after_main_at].
  unfold decimal, dword. now rewrite Hts, Hv.
Qed.

Lemma stdout_depends_on_time_text_and_version_sample :
  console (final (run SampleHost.sample (main false)
                    (start one_newline [] [] [] [])))
  = console (final (run later_host (main true)
                      (start silent_console [1; 2; 3]
                         [("USERNAME", "build")] [] []))).
Proof.
  apply stdout_depends_on_time_text_and_version.
  - vm_compute. reflexivity.
  - vm_compute. reflexivity.
Defined.

Lemma length_lines (s : string) :
  List.length (lines s) = S (count_newlines s).
Proof.
  induction s as [|c r IH]; simpl.
  - reflexivity.
  - destruct (Ascii.eqb c nl); simpl.
    + now rewrite IH.
    + destruct (lines r) as [|x t]; [discriminate IH | exact IH].
Qed.

Lemma count_newlines_app (a b : string) :
  count_newlines (a ++ b) = (count_newlines a + count_newlines b)%nat.
Proof.
  induction a as [|c a IH]; simpl.
  - reflexivity.
  - destruct (Ascii.eqb c nl); simpl; now rewrite IH.
Qed.

Lemma count_newlines_none (s : string) :
  no_newline s = true -> count_newlines s = 0%nat.
Proof.
  unfold no_newline. induction s as [|c s IH]; simpl; intros H.
  - reflexivity.
  - apply andb_true_iff in H as [Hc Hs].
    apply negb_true_iff in Hc. rewrite Hc. now apply IH.
Qed.

Lemma lines_nonempty (s : string) : lines s <> [].
Proof.
  intros H. pose proof (length_lines s) as L. rewrite H in L. discriminate L.
Qed.

(** After the last newline of a text comes its last line. *)
Lemma last_lines_app (a b : string) :
  no_newline b = true ->
  last (lines (a ++ String nl b)) EmptyString = b.
Proof.
  intros Hb. induction a as [|c a IH].
  - change (last (EmptyString :: lines b) EmptyString = b).
    rewrite (lines_no_newline b Hb). reflexivity.
  - pose proof (length_lines (a ++ String nl b)) as L.
    rewrite count_newlines_app in L. simpl in L.
    rewrite Nat.add_succ_r in L.
    simpl. destruct (lines (a ++ String nl b)) as [|x [|y t]];
      try discriminate L.
    destruct (Ascii.eqb c nl); exact IH.
Qed.

(** X6: when ctime hands back a text, [main] itself writes three
    newlines (two [std::endl] and the one that opens the prompt text)
    and every other line break on standard output comes from that text:
    the output has four lines more than the time text has newlines, the
    last one being the prompt, which no newline follows.  When ctime
    hands back the null pointer the output has two lines, the greeting
    and "Built at: ". *)
Theorem stdout_line_count (h : host) (u : bool) (i : instream)
    (g : list Z) (e f : list (string * string)) (n : list string) :
  let out := console (final (run h (main u) (start i g e f n))) in
  match time_text h e with
  | Some ts =>
      count_newlines out = (3 + count_newlines ts)%nat
      /\ List.length (lines out) = (4 + count_newlines ts)%nat
      /\ last (lines out) EmptyString = press_enter
  | None =>
      count_newlines out = 1%nat
      /\ lines out = [greeting; built_at]
  end.
Proof.
  intros out. subst out. rewrite final_run_main. unfold after_main.
  cbn [console after_main_at].
  destruct (time_text h e) as [ts|]; cbn [stdout_text];
    [| split; reflexivity].
  assert (Hc : count_newlines (template ts (decimal (version h)))
               = (3 + count_newlines ts)%nat).
  { unfold template. rewrite !count_newlines_app.
    rewrite (count_newlines_none (decimal (version h)))
      by apply decimal_no_newline.
    change (count_newlines greeting) with 0%nat.
    change (count_newlines newline) with 1%nat.
    change (count_newlines built_at) with 0%nat.
    change (count_newlines windows_build) with 0%nat.
    change (count_newlines press_enter) with 0%nat.
    lia. }
  split; [exact Hc | split].
  - rewrite length_lines, Hc. reflexivity.
  - unfold template.
    assert (E : greeting ++ newline ++ built_at ++ ts
                  ++ windows_build ++ decimal (version h) ++ newline
                  ++ newline ++ press_enter
                = (greeting ++ newline ++ built_at ++ ts
                     ++ windows_build ++ decimal (version h) ++ newline)
                  ++ String nl press_enter)
      by (rewrite !append_assoc; reflexivity).
    rewrite E. apply last_lines_app. reflexivity.
Qed.
